(** * chart_script.py: the FWEA-I architecture diagram, embedded and verified

    The script builds one plotly figure from three literal tables
    (components, layers, user-flow arrows), by a fixed sequence of
    [add_shape], [add_annotation] and [update_layout] calls on a single
    mutable figure object, and finally writes the figure to a PNG file.

    Embedding:
    - Python numbers are [num]: an [int] is a [Z], a [float] is an IEEE 754
      binary64 value (Rocq's primitive [float]), with Python's promotion of
      [int] to [float] in mixed arithmetic;
    - the tables are association lists and lists of records, in source order
      (the iteration order of a Python dict is its insertion order);
    - keyword arguments handed to plotly are finite maps from the keyword to a
      Python value ([kwargs]);
    - the figure object is threaded through the calls as explicit state;
    - the file system is a finite map from paths to images, the rendering
      backend a function from figures to images. *)

From Stdlib Require Import ZArith List String Ascii Bool Floats Lia.
From stdpp Require Import gmap strings list.
Import ListNotations.

Set Warnings "-inexact-float,-register-all".
#[local] Open Scope string_scope.

(** ** Python values *)

Inductive num :=
| Int (z : Z)
| Float (f : float).

(** [float(z)]: the integer rounded to the nearest binary64 value, ties to
    even.  Beyond the binary64 range this is an infinity (CPython raises
    OverflowError there); every integer of the script is below 2^53 and
    converts exactly. *)
Definition float_of_int (z : Z) : float :=
  SF2Prim (binary_normalize prec emax z 0 false).

Definition to_float (n : num) : float :=
  match n with
  | Int z => float_of_int z
  | Float f => f
  end.

(** [a - b] and [a + b]: integer arithmetic on two ints, otherwise both
    operands are promoted to float. *)
Definition num_sub (a b : num) : num :=
  match a, b with
  | Int x, Int y => Int (x - y)
  | _, _ => Float (to_float a - to_float b)
  end.

Definition num_add (a b : num) : num :=
  match a, b with
  | Int x, Int y => Int (x + y)
  | _, _ => Float (to_float a + to_float b)
  end.

(** [a <= b], [a < b], [a == b] on numbers.  Python compares an int with a
    float by value; for the ints below 2^53, which convert exactly, that is
    the comparison of the two floats. *)
Definition num_leb (a b : num) : bool :=
  match a, b with
  | Int x, Int y => (x <=? y)%Z
  | _, _ => PrimFloat.leb (to_float a) (to_float b)
  end.

Definition num_ltb (a b : num) : bool :=
  match a, b with
  | Int x, Int y => (x <? y)%Z
  | _, _ => PrimFloat.ltb (to_float a) (to_float b)
  end.

Definition num_eqb (a b : num) : bool :=
  match a, b with
  | Int x, Int y => (x =? y)%Z
  | _, _ => PrimFloat.eqb (to_float a) (to_float b)
  end.

Declare Scope num_scope.
Delimit Scope num_scope with num.
Bind Scope num_scope with num.
Infix "-" := num_sub : num_scope.
Infix "+" := num_add : num_scope.
Infix "<=?" := num_leb : num_scope.
Infix "<?" := num_ltb : num_scope.
Infix "=?" := num_eqb : num_scope.

(** The values that the script passes to plotly. *)
Inductive value :=
| Num (n : num)
| Str (s : string)
| Bool (b : bool)
| List (l : list value)
| Dict (d : gmap string value).

Abbreviation kwargs := (gmap string value).

(** [dict(k1=v1, ..., kn=vn)] and the keyword arguments of a call. *)
Definition dict (items : list (string * value)) : kwargs := list_to_map items.

(** ** str.replace *)

(** [s.replace("", new)]: [new] before every character and at the end. *)
Fixpoint replace_empty (new s : string) : string :=
  match s with
  | EmptyString => new
  | String c s' => new ++ String c (replace_empty new s')
  end.

(** [s.replace(old, new)] for a non-empty [old]: scanning from the left,
    every non-overlapping occurrence of [old] is replaced by [new].  [skip]
    counts the characters of the occurrence just replaced that are still to
    be dropped. *)
Fixpoint replace_from (old new : string) (skip : nat) (s : string) : string :=
  match s with
  | EmptyString => EmptyString
  | String c s' =>
      match skip with
      | S k => replace_from old new k s'
      | O =>
          if String.prefix old s
          then new ++ replace_from old new (String.length old - 1) s'
          else String c (replace_from old new 0 s')
      end
  end.

Definition replace (old new s : string) : string :=
  match old with
  | EmptyString => replace_empty new s
  | _ => replace_from old new 0 s
  end.

(** ** The tables of the script *)

(** A value of the [components] dict. *)
Module Props.
Record t := mk { x : num; y : num; type : string; color : string }.
End Props.

(** An entry of [layers]. *)
Module Layer.
Record t := mk { name : string; y : num; color : string; alpha : num }.
End Layer.

(** An entry of [user_flow_arrows]; [end_] is the key ['end']. *)
Module Arrow.
Record t := mk { start : num * num; end_ : num * num; color : string }.
End Arrow.

(** Define component positions and properties. *)
Definition components : list (string * Props.t) :=
  [ ("Wix Frontend",
      {| Props.x := Int 2; Props.y := Int 5; Props.type := "frontend"; Props.color := "#1FB8CD" |});
    ("Cloudflare Workers",
      {| Props.x := Int 2; Props.y := Int 4; Props.type := "backend"; Props.color := "#DB4545" |});
    ("R2 Storage",
      {| Props.x := Int 1; Props.y := Int 3; Props.type := "storage"; Props.color := "#2E8B57" |});
    ("KV Store",
      {| Props.x := Int 2; Props.y := Int 3; Props.type := "storage"; Props.color := "#2E8B57" |});
    ("D1 Database",
      {| Props.x := Int 3; Props.y := Int 3; Props.type := "storage"; Props.color := "#2E8B57" |});
    ("Cloudflare AI",
      {| Props.x := Float 1.5; Props.y := Int 2; Props.type := "processing"; Props.color := "#5D878F" |});
    ("RunPod",
      {| Props.x := Float 2.5; Props.y := Int 2; Props.type := "processing"; Props.color := "#5D878F" |});
    ("Stripe",
      {| Props.x := Float 3.5; Props.y := Int 1; Props.type := "payment"; Props.color := "#D2BA4C" |});
    ("GitHub",
      {| Props.x := Float 0.5; Props.y := Int 4; Props.type := "deployment"; Props.color := "#B4413C" |}) ].

Definition layers : list Layer.t :=
  [ {| Layer.name := "Frontend"; Layer.y := Int 5; Layer.color := "#1FB8CD"; Layer.alpha := Float 0.1 |};
    {| Layer.name := "Backend"; Layer.y := Int 4; Layer.color := "#DB4545"; Layer.alpha := Float 0.1 |};
    {| Layer.name := "Storage"; Layer.y := Int 3; Layer.color := "#2E8B57"; Layer.alpha := Float 0.1 |};
    {| Layer.name := "Processing"; Layer.y := Int 2; Layer.color := "#5D878F"; Layer.alpha := Float 0.1 |};
    {| Layer.name := "Payment"; Layer.y := Int 1; Layer.color := "#D2BA4C"; Layer.alpha := Float 0.1 |} ].

Definition user_flow_arrows : list Arrow.t :=
  [ (* Upload to Workers *)
    {| Arrow.start := (Int 2, Float 4.8); Arrow.end_ := (Int 2, Float 4.2); Arrow.color := "blue" |};
    (* Workers to Storage *)
    {| Arrow.start := (Float 1.8, Float 3.8); Arrow.end_ := (Float 1.3, Float 3.2); Arrow.color := "blue" |};
    {| Arrow.start := (Int 2, Float 3.8); Arrow.end_ := (Int 2, Float 3.2); Arrow.color := "blue" |};
    {| Arrow.start := (Float 2.2, Float 3.8); Arrow.end_ := (Float 2.7, Float 3.2); Arrow.color := "blue" |};
    (* Workers to Processing *)
    {| Arrow.start := (Float 1.8, Float 3.8); Arrow.end_ := (Float 1.6, Float 2.2); Arrow.color := "blue" |};
    {| Arrow.start := (Float 2.2, Float 3.8); Arrow.end_ := (Float 2.4, Float 2.2); Arrow.color := "blue" |};
    (* Workers to Payment *)
    {| Arrow.start := (Float 2.5, Float 3.8); Arrow.end_ := (Float 3.3, Float 1.2); Arrow.color := "blue" |} ].

(** [d[key]] on a dict given by its items. *)
Fixpoint getitem {V} (d : list (string * V)) (key : string) : option V :=
  match d with
  | [] => None
  | (k, v) :: d' => if String.eqb k key then Some v else getitem d' key
  end.

(** ** The figure object *)

(** A plotly figure, as far as the script touches it: the shapes and the
    annotations in the order of the calls that added them, and the remaining
    layout properties. *)
Record Figure := {
  shapes : list kwargs;
  annotations : list kwargs;
  layout : kwargs
}.

(** [go.Figure()] *)
Definition go_Figure : Figure :=
  {| shapes := []; annotations := []; layout := ∅ |}.

(** [fig.add_shape(...)] appends one shape. *)
Definition add_shape (kw : kwargs) (fig : Figure) : Figure :=
  {| shapes := shapes fig ++ [kw];
     annotations := annotations fig;
     layout := layout fig |}.

(** [fig.add_annotation(...)] appends one annotation. *)
Definition add_annotation (kw : kwargs) (fig : Figure) : Figure :=
  {| shapes := shapes fig;
     annotations := annotations fig ++ [kw];
     layout := layout fig |}.

(** [fig.update_layout(...)] sets the given layout properties and keeps the
    others. *)
Definition update_layout (kw : kwargs) (fig : Figure) : Figure :=
  {| shapes := shapes fig;
     annotations := annotations fig;
     layout := kw ∪ layout fig |}.

(** A statement acting on [fig]. *)
Definition stmt := Figure -> Figure.

(** [for a in l: body(a)] *)
Fixpoint for_each {A} (l : list A) (body : A -> stmt) : stmt :=
  fun fig =>
    match l with
    | [] => fig
    | a :: l' => for_each l' body (body a fig)
    end.

(** A sequence of statements, run first to last. *)
Definition block (ss : list stmt) : stmt := for_each ss (fun s => s).

(** ** The statements of the script *)

(** Rectangle of a component (lines 23-30). *)
Definition component_box (props : Props.t) : kwargs :=
  dict [ ("type", Str "rect");
         ("x0", Num (Props.x props - Float 0.3)); ("y0", Num (Props.y props - Float 0.2));
         ("x1", Num (Props.x props + Float 0.3)); ("y1", Num (Props.y props + Float 0.2));
         ("fillcolor", Str (Props.color props));
         ("line", Dict (dict [("color", Str "white"); ("width", Num (Int 2))]));
         ("opacity", Num (Float 0.8)) ].

(** Name of a component (lines 33-39). *)
Definition component_label (name : string) (props : Props.t) : kwargs :=
  dict [ ("x", Num (Props.x props)); ("y", Num (Props.y props));
         ("text", Str (replace " " "<br>" name));
         ("showarrow", Bool false);
         ("font", Dict (dict [("color", Str "white"); ("size", Num (Int 9))]));
         ("align", Str "center") ].

(** Background rectangle of a layer (lines 51-58). *)
Definition layer_band (layer : Layer.t) : kwargs :=
  dict [ ("type", Str "rect");
         ("x0", Num (Float (-0.2))); ("y0", Num (Layer.y layer - Float 0.4));
         ("x1", Num (Float 4.2)); ("y1", Num (Layer.y layer + Float 0.4));
         ("fillcolor", Str (Layer.color layer));
         ("opacity", Num (Layer.alpha layer));
         ("line", Dict (dict [("width", Num (Int 0))])) ].

(** Label of a layer (lines 62-69). *)
Definition layer_label (layer : Layer.t) : kwargs :=
  dict [ ("x", Num (Float (-0.1))); ("y", Num (Layer.y layer));
         ("text", Str (Layer.name layer));
         ("showarrow", Bool false);
         ("font", Dict (dict [("color", Str "gray"); ("size", Num (Int 11))]));
         ("textangle", Num (Int 90));
         ("align", Str "center") ].

(** Admin bypass arrow (lines 87-98). *)
Definition admin_bypass_arrow : kwargs :=
  dict [ ("x", Num (Float 2.8)); ("y", Num (Float 4.5));
         ("ax", Num (Float 2.2)); ("ay", Num (Float 4.5));
         ("xref", Str "x"); ("yref", Str "y");
         ("axref", Str "x"); ("ayref", Str "y");
         ("arrowhead", Num (Int 2));
         ("arrowsize", Num (Int 1));
         ("arrowwidth", Num (Int 3));
         ("arrowcolor", Str "red");
         ("text", Str "Admin Bypass");
         ("font", Dict (dict [("color", Str "red"); ("size", Num (Int 8))])) ].

(** A user flow arrow (lines 102-111). *)
Definition user_flow_arrow (arrow : Arrow.t) : kwargs :=
  dict [ ("x", Num (fst (Arrow.end_ arrow))); ("y", Num (snd (Arrow.end_ arrow)));
         ("ax", Num (fst (Arrow.start arrow))); ("ay", Num (snd (Arrow.start arrow)));
         ("xref", Str "x"); ("yref", Str "y");
         ("axref", Str "x"); ("ayref", Str "y");
         ("arrowhead", Num (Int 2));
         ("arrowsize", Num (Int 1));
         ("arrowwidth", Num (Int 2));
         ("arrowcolor", Str (Arrow.color arrow)) ].

(** GitHub to Workers (lines 115-124). *)
Definition github_arrow : kwargs :=
  dict [ ("x", Num (Float 1.7)); ("y", Num (Int 4));
         ("ax", Num (Float 0.8)); ("ay", Num (Int 4));
         ("xref", Str "x"); ("yref", Str "y");
         ("axref", Str "x"); ("ayref", Str "y");
         ("arrowhead", Num (Int 2));
         ("arrowsize", Num (Int 1));
         ("arrowwidth", Num (Int 2));
         ("arrowcolor", Str "green") ].

(** User journey labels (lines 127-136). *)
Definition user_journey_label : kwargs :=
  dict [ ("x", Num (Int 4)); ("y", Num (Float 5.5));
         ("text", Str "User Journey:<br>1. Upload Audio<br>2. AI Analysis<br>3. Preview<br>4. Payment<br>5. Download");
         ("showarrow", Bool false);
         ("font", Dict (dict [("color", Str "blue"); ("size", Num (Int 9))]));
         ("align", Str "left");
         ("bgcolor", Str "rgba(255,255,255,0.8)");
         ("bordercolor", Str "blue");
         ("borderwidth", Num (Int 1)) ].

(** Admin journey labels (lines 139-148); the text is kept in UTF-8. *)
Definition admin_journey_label : kwargs :=
  dict [ ("x", Num (Int 4)); ("y", Num (Float 4.5));
         ("text", Str "Admin Path:<br>• Token Bypass<br>• Full Access<br>• No Payment");
         ("showarrow", Bool false);
         ("font", Dict (dict [("color", Str "red"); ("size", Num (Int 9))]));
         ("align", Str "left");
         ("bgcolor", Str "rgba(255,255,255,0.8)");
         ("bordercolor", Str "red");
         ("borderwidth", Num (Int 1)) ].

(** Arguments of [update_layout] (lines 151-167). *)
Definition layout_update : kwargs :=
  dict [ ("title", Str "FWEA-I Audio System Architecture");
         ("xaxis", Dict (dict [ ("range", List [Num (Float (-0.5)); Num (Int 5)]);
                                ("showgrid", Bool false);
                                ("showticklabels", Bool false);
                                ("zeroline", Bool false) ]));
         ("yaxis", Dict (dict [ ("range", List [Num (Float 0.5); Num (Int 6)]);
                                ("showgrid", Bool false);
                                ("showticklabels", Bool false);
                                ("zeroline", Bool false) ]));
         ("plot_bgcolor", Str "white");
         ("showlegend", Bool false) ].

(** The loops of the script. *)
Definition add_components (components : list (string * Props.t)) : stmt :=
  for_each components (fun '(name, props) =>
    block [ add_shape (component_box props);
            add_annotation (component_label name props) ]).

Definition add_layer_bands (layers : list Layer.t) : stmt :=
  for_each layers (fun layer => add_shape (layer_band layer)).

Definition add_layer_labels (layers : list Layer.t) : stmt :=
  for_each layers (fun layer => add_annotation (layer_label layer)).

Definition add_user_flow_arrows (user_flow_arrows : list Arrow.t) : stmt :=
  for_each user_flow_arrows (fun arrow => add_annotation (user_flow_arrow arrow)).

(** Lines 18-167, for any content of the three tables: the figure is
    created, filled and laid out. *)
Definition build_figure (components : list (string * Props.t))
    (layers : list Layer.t) (user_flow_arrows : list Arrow.t) : Figure :=
  block [ add_components components;
          add_layer_bands layers;
          add_layer_labels layers;
          add_annotation admin_bypass_arrow;
          add_user_flow_arrows user_flow_arrows;
          add_annotation github_arrow;
          add_annotation user_journey_label;
          add_annotation admin_journey_label;
          update_layout layout_update ]
    go_Figure.

(** The figure of the script. *)
Definition fig : Figure := build_figure components layers user_flow_arrows.

(** ** Saving the chart *)

Section Saving.
(** The rendering backend turns a figure into the bytes of an image; the
    file system maps a path to the content of the file there. *)
Context {Image : Type} (render : Figure -> Image).

(** [fig.write_image(path)] creates or overwrites the file at [path]. *)
Definition write_image (fig : Figure) (path : string)
    (fs : gmap string Image) : gmap string Image :=
  <[path := render fig]> fs.

(** One run of the script on given tables, as a change of the file
    system. *)
Definition run (components : list (string * Props.t))
    (layers : list Layer.t) (user_flow_arrows : list Arrow.t)
    (fs : gmap string Image) : gmap string Image :=
  write_image (build_figure components layers user_flow_arrows)
    "fwea_architecture_updated.png" fs.

(** One run of the script. *)
Definition chart_script (fs : gmap string Image) : gmap string Image :=
  run components layers user_flow_arrows fs.
End Saving.

(** ** Reading the figure back *)

(** The numeric and the string value of a keyword. *)
Definition get_num (kw : kwargs) (key : string) : option num :=
  match kw !! key with
  | Some (Num n) => Some n
  | _ => None
  end.

Definition get_str (kw : kwargs) (key : string) : option string :=
  match kw !! key with
  | Some (Str s) => Some s
  | _ => None
  end.

(** A property of an axis of the layout, [fig.layout[axis][key]]. *)
Definition axis_prop (f : Figure) (axis key : string) : option value :=
  match layout f !! axis with
  | Some (Dict d) => d !! key
  | _ => None
  end.

(** The declared range [[lo, hi]] of an axis. *)
Definition axis_range (f : Figure) (axis : string) : option (num * num) :=
  match axis_prop f axis "range" with
  | Some (List [Num lo; Num hi]) => Some (lo, hi)
  | _ => None
  end.

(** [lo <= v <= hi] *)
Definition in_range (r : num * num) (v : num) : bool :=
  (fst r <=? v)%num && (v <=? snd r)%num.

(** The interval [[a, b]] lies in [[lo, hi]]. *)
Definition interval_in_range (r : num * num) (a b : num) : bool :=
  (fst r <=? a)%num && (a <=? b)%num && (b <=? snd r)%num.

(** A point lies within the declared ranges of both axes. *)
Definition point_in_axes (f : Figure) (p : num * num) : bool :=
  match axis_range f "xaxis", axis_range f "yaxis" with
  | Some rx, Some ry => in_range rx (fst p) && in_range ry (snd p)
  | _, _ => false
  end.

(** An annotation draws an arrow unless it says [showarrow=False]. *)
Definition is_arrow (a : kwargs) : bool :=
  match a !! "showarrow" with
  | Some (Bool false) => false
  | _ => true
  end.

(** Tail [(ax, ay)] and head [(x, y)] of an arrow annotation. *)
Definition arrow_start (a : kwargs) : option (num * num) :=
  match get_num a "ax", get_num a "ay" with
  | Some ax, Some ay => Some (ax, ay)
  | _, _ => None
  end.

Definition arrow_end (a : kwargs) : option (num * num) :=
  match get_num a "x", get_num a "y" with
  | Some x, Some y => Some (x, y)
  | _, _ => None
  end.

Definition arrow_in_axes (f : Figure) (a : kwargs) : bool :=
  match arrow_start a, arrow_end a with
  | Some s, Some e => point_in_axes f s && point_in_axes f e
  | _, _ => false
  end.

(** The head of an arrow annotation lies strictly below its tail. *)
Definition arrow_points_down (a : kwargs) : bool :=
  match arrow_start a, arrow_end a with
  | Some s, Some e => (snd e <? snd s)%num
  | _, _ => false
  end.

(** A rectangle lies within the declared ranges of both axes. *)
Definition rect_in_axes (f : Figure) (s : kwargs) : bool :=
  match axis_range f "xaxis", axis_range f "yaxis",
        get_num s "x0", get_num s "x1", get_num s "y0", get_num s "y1" with
  | Some rx, Some ry, Some x0, Some x1, Some y0, Some y1 =>
      interval_in_range rx x0 x1 && interval_in_range ry y0 y1
  | _, _, _, _, _, _ => false
  end.

(** An annotation is anchored at [(x, y)]. *)
Definition anchored_at (x y : num) (a : kwargs) : bool :=
  match get_num a "x", get_num a "y" with
  | Some ax, Some ay => (ax =? x)%num && (ay =? y)%num
  | _, _ => false
  end.

(** The label text as the specification words it: the name with every
    space character replaced by the line break [<br>], every other
    character as it is. *)
Fixpoint spaces_to_br (s : string) : string :=
  match s with
  | EmptyString => EmptyString
  | String c s' =>
      (if Ascii.eqb c " " then "<br>" else String c EmptyString) ++ spaces_to_br s'
  end.

(** [sep.join(words)]: the words with [sep] between neighbours. *)
Fixpoint join (sep : string) (words : list string) : string :=
  match words with
  | [] => EmptyString
  | w :: ws =>
      match ws with
      | [] => w
      | _ :: _ => w ++ sep ++ join sep ws
      end
  end.

(** [s.lower()] on ASCII text. *)
Definition lower_ascii (c : ascii) : ascii :=
  let n := nat_of_ascii c in
  if Nat.leb 65 n && Nat.leb n 90 then ascii_of_nat (n + 32) else c.

Fixpoint lower (s : string) : string :=
  match s with
  | EmptyString => EmptyString
  | String c s' => String (lower_ascii c) (lower s')
  end.

(** The component [item] belongs to the tier of [layer]: its category is the
    lowercased layer name and it sits at the height of the band. *)
Definition tier_component (layer : Layer.t) (item : string * Props.t) : bool :=
  String.eqb (Props.type (snd item)) (lower (Layer.name layer))
  && (Props.y (snd item) =? Layer.y layer)%num.

(** The boxes, labels and bands that the loops add, table entry by table
    entry. *)
Definition component_boxes (components : list (string * Props.t)) : list kwargs :=
  (fun item => component_box (snd item)) <$> components.

Definition component_labels (components : list (string * Props.t)) : list kwargs :=
  (fun item => component_label (fst item) (snd item)) <$> components.

(** * Properties *)

(** ** Loops and statements *)

Lemma block_nil f : block [] f = f.
Proof. reflexivity. Qed.

Lemma block_cons s ss f : block (s :: ss) f = block ss (s f).
Proof. reflexivity. Qed.

Section ForEach.
Context {A : Type} (g : A -> kwargs).

Lemma for_each_add_shape l f :
  for_each l (fun a => add_shape (g a)) f =
  {| shapes := shapes f ++ (g <$> l);
     annotations := annotations f;
     layout := layout f |}.
Proof.
  revert f; induction l as [|a l IH]; intros f; simpl.
  - rewrite app_nil_r. by destruct f.
  - rewrite IH. simpl. by rewrite <- app_assoc.
Qed.

Lemma for_each_add_annotation l f :
  for_each l (fun a => add_annotation (g a)) f =
  {| shapes := shapes f;
     annotations := annotations f ++ (g <$> l);
     layout := layout f |}.
Proof.
  revert f; induction l as [|a l IH]; intros f; simpl.
  - rewrite app_nil_r. by destruct f.
  - rewrite IH. simpl. by rewrite <- app_assoc.
Qed.
End ForEach.

Lemma add_components_spec comps f :
  add_components comps f =
  {| shapes := shapes f ++ component_boxes comps;
     annotations := annotations f ++ component_labels comps;
     layout := layout f |}.
Proof.
  unfold add_components, component_boxes, component_labels.
  revert f; induction comps as [|[name props] comps IH]; intros f; simpl.
  - rewrite !app_nil_r. by destruct f.
  - rewrite IH. simpl. by rewrite <- !app_assoc.
Qed.

Lemma add_layer_bands_spec ls f :
  add_layer_bands ls f =
  {| shapes := shapes f ++ (layer_band <$> ls);
     annotations := annotations f;
     layout := layout f |}.
Proof. apply for_each_add_shape. Qed.

Lemma add_layer_labels_spec ls f :
  add_layer_labels ls f =
  {| shapes := shapes f;
     annotations := annotations f ++ (layer_label <$> ls);
     layout := layout f |}.
Proof. apply for_each_add_annotation. Qed.

Lemma add_user_flow_arrows_spec arrows f :
  add_user_flow_arrows arrows f =
  {| shapes := shapes f;
     annotations := annotations f ++ (user_flow_arrow <$> arrows);
     layout := layout f |}.
Proof. apply for_each_add_annotation. Qed.

(** The figure that the script builds, in closed form. *)
Lemma build_figure_spec comps ls arrows :
  build_figure comps ls arrows =
  {| shapes := component_boxes comps ++ (layer_band <$> ls);
     annotations :=
       component_labels comps ++ (layer_label <$> ls) ++
       admin_bypass_arrow :: (user_flow_arrow <$> arrows) ++
       [github_arrow; user_journey_label; admin_journey_label];
     layout := layout_update |}.
Proof.
  unfold build_figure.
  rewrite !block_cons, block_nil.
  rewrite add_components_spec, add_layer_bands_spec, add_layer_labels_spec.
  unfold add_annotation at 4. rewrite add_user_flow_arrows_spec.
  unfold add_annotation, update_layout, go_Figure.
  cbn [shapes annotations layout app].
  f_equal.
  rewrite <- !app_assoc. reflexivity.
Qed.

(** ** Replacing the spaces of a name *)

(** [str.replace] on a few inputs, as CPython evaluates them. *)
Example replace_examples :
  replace " " "<br>" "Cloudflare Workers" = "Cloudflare<br>Workers" /\
  replace " " "<br>" "Stripe" = "Stripe" /\
  replace "ab" "X" "ababa ab" = "XXa X" /\
  replace "aa" "X" "aaa" = "Xa" /\
  replace "" "-" "ab" = "-a-b-".
Proof. repeat split. Qed.

(** On every string, [replace " " "<br>"] does what the specification
    describes: each space becomes a line break, the rest is untouched. *)
Lemma replace_space_br s : replace " " "<br>" s = spaces_to_br s.
Proof.
  change (replace_from " " "<br>" 0 s = spaces_to_br s).
  induction s as [|c s IH]; [reflexivity|].
  cbn [replace_from String.prefix String.length Nat.sub spaces_to_br].
  destruct (ascii_dec " " c) as [<-|Hc].
  - rewrite IH. by destruct s.
  - rewrite IH. destruct (Ascii.eqb_spec c " ") as [->|_]; [done|reflexivity].
Qed.

Lemma spaces_to_br_no_space s :
  String.index 0 " " s = None -> spaces_to_br s = s.
Proof.
  induction s as [|c s IH]; [reflexivity|].
  cbn [spaces_to_br String.index String.prefix].
  destruct (ascii_dec " " c) as [<-|Hc]; [destruct s; discriminate|].
  destruct (Ascii.eqb_spec c " ") as [->|_]; [done|].
  destruct (String.index 0 " " s); [discriminate|].
  intros _. cbn. by rewrite IH.
Qed.

(** ** Checking a list entry by entry *)

Lemma Forall_of_forallb {A} (p : A -> bool) (l : list A) :
  forallb p l = true -> Forall (fun a => p a = true) l.
Proof.
  induction l as [|a l IH]; cbn; [constructor|].
  intros [Ha Hl]%andb_true_iff. constructor; auto.
Qed.

Lemma filter_fmap_all {A} (p : kwargs -> bool) (g : A -> kwargs) (l : list A) :
  (forall a, p (g a) = true) -> List.filter p (g <$> l) = g <$> l.
Proof.
  intros Hp. induction l as [|a l IH]; [reflexivity|].
  rewrite fmap_cons. cbn [List.filter]. by rewrite Hp, IH.
Qed.

Lemma filter_fmap_none {A} (p : kwargs -> bool) (g : A -> kwargs) (l : list A) :
  (forall a, p (g a) = false) -> List.filter p (g <$> l) = [].
Proof.
  intros Hp. induction l as [|a l IH]; [reflexivity|].
  rewrite fmap_cons. cbn [List.filter]. by rewrite Hp, IH.
Qed.

(** ** The annotations that draw an arrow *)

(** Whatever the tables hold, the arrows of the figure are the admin bypass
    arrow, one arrow per entry of the user flow list, and the GitHub
    arrow, in this order. *)
Lemma arrows_of_figure comps ls arrows :
  List.filter is_arrow (annotations (build_figure comps ls arrows))
  = (admin_bypass_arrow :: (user_flow_arrow <$> arrows) ++ [github_arrow])%list.
Proof.
  rewrite build_figure_spec. cbn [annotations].
  unfold component_labels.
  rewrite !List.filter_app.
  rewrite !filter_fmap_none by (intros ?; reflexivity).
  change (admin_bypass_arrow :: ?l)%list with ([admin_bypass_arrow] ++ l)%list.
  rewrite !List.filter_app.
  rewrite filter_fmap_all by (intros ?; reflexivity).
  reflexivity.
Qed.

(** The annotations drawn from the user flow list follow the labels of the
    components, the labels of the layers and the admin bypass arrow. *)
Lemma user_flow_annotations comps ls arrows :
  take (length arrows)
       (drop (length comps + length ls + 1)
             (annotations (build_figure comps ls arrows)))
  = user_flow_arrow <$> arrows.
Proof.
  rewrite build_figure_spec. cbn [annotations].
  change (admin_bypass_arrow :: ?l)%list with ([admin_bypass_arrow] ++ l)%list.
  rewrite !(assoc_L (++)).
  rewrite <- (assoc_L (++) _ (user_flow_arrow <$> arrows)).
  rewrite drop_app_length'.
  - rewrite take_app_length'; [done|by rewrite length_fmap].
  - unfold component_labels. rewrite !length_app, !length_fmap. reflexivity.
Qed.

(** ** The component boxes and their labels *)

(** The keys of the component table are pairwise distinct, so the
    association list stands for the dict and [getitem] for its lookup. *)
Lemma components_keys_unique : NoDup (fst <$> components).
Proof. apply (bool_decide_unpack _). by vm_compute. Qed.

(** C1: the component table holds "Stripe" at position (3.5, 1) with
    category "payment"; the rectangle drawn for it (the eighth shape, around
    that position) is filled with "#D2BA4C", the colour of the payment
    components and of the Payment layer; and the one annotation anchored at
    (3.5, 1) is its label, with text exactly "Stripe". *)
Theorem stripe_box_and_label :
  let stripe :=
    {| Props.x := Float 3.5; Props.y := Int 1;
       Props.type := "payment"; Props.color := "#D2BA4C" |} in
  getitem components "Stripe" = Some stripe /\
  components !! 7%nat = Some ("Stripe", stripe) /\
  forallb (fun item =>
             implb (String.eqb (Props.type (snd item)) "payment")
                   (String.eqb (Props.color (snd item)) "#D2BA4C"))
          components = true /\
  (Layer.color <$> List.find (fun l => String.eqb (Layer.name l) "Payment") layers)
    = Some "#D2BA4C" /\
  shapes fig !! 7%nat = Some (component_box stripe) /\
  get_str (component_box stripe) "type" = Some "rect" /\
  get_num (component_box stripe) "x0" = Some (Float 3.5 - Float 0.3)%num /\
  get_num (component_box stripe) "x1" = Some (Float 3.5 + Float 0.3)%num /\
  get_num (component_box stripe) "y0" = Some (Int 1 - Float 0.2)%num /\
  get_num (component_box stripe) "y1" = Some (Int 1 + Float 0.2)%num /\
  get_str (component_box stripe) "fillcolor" = Some "#D2BA4C" /\
  annotations fig !! 7%nat = Some (component_label "Stripe" stripe) /\
  List.filter (anchored_at (Float 3.5) (Int 1)) (annotations fig)
    = [component_label "Stripe" stripe] /\
  get_str (component_label "Stripe" stripe) "text" = Some "Stripe".
Proof. cbv zeta. repeat split; vm_compute; reflexivity. Qed.

(** C3: the components loop adds one rectangle per entry of the component
    table and the layers loop one rectangle per entry of the layer table,
    whatever the tables hold; with the tables of the script that is 9 boxes
    and 5 bands, and the figure has no other shape. *)
Theorem shape_counts :
  (forall comps ls arrows,
     shapes (build_figure comps ls arrows)
       = (component_boxes comps ++ (layer_band <$> ls))%list /\
     length (component_boxes comps) = length comps /\
     length (layer_band <$> ls) = length ls) /\
  (forall comps ls f,
     length (shapes (add_components comps f)) = (length (shapes f) + length comps)%nat /\
     length (shapes (add_layer_bands ls f)) = (length (shapes f) + length ls)%nat) /\
  length components = 9%nat /\
  length layers = 5%nat /\
  length (component_boxes components) = 9%nat /\
  length (layer_band <$> layers) = 5%nat /\
  length (shapes fig) = 14%nat /\
  Forall (fun s => get_str s "type" = Some "rect") (shapes fig).
Proof.
  split; [|split].
  - intros comps ls arrows. rewrite build_figure_spec.
    unfold component_boxes. by rewrite !length_fmap.
  - intros comps ls f. rewrite add_components_spec, add_layer_bands_spec.
    cbn [shapes]. unfold component_boxes.
    by rewrite !length_app, !length_fmap.
  - repeat split; try reflexivity.
    unfold fig. rewrite build_figure_spec. cbn [shapes].
    apply Forall_app; split; apply Forall_fmap, Forall_true; intros ?; reflexivity.
Qed.

(** C5: whatever the tables hold, the label of the i-th component is the
    i-th annotation of the figure; it is anchored at the component's
    position and its text is the component's name with every space replaced
    by "<br>" and nothing else changed. *)
Theorem component_label_text comps ls arrows (i : nat) name props :
  comps !! i = Some (name, props) ->
  exists label,
    annotations (build_figure comps ls arrows) !! i = Some label /\
    label = component_label name props /\
    get_num label "x" = Some (Props.x props) /\
    get_num label "y" = Some (Props.y props) /\
    get_str label "text" = Some (spaces_to_br name).
Proof.
  intros Hi. exists (component_label name props).
  rewrite build_figure_spec. cbn [annotations].
  split; [|split; [reflexivity|]].
  - apply lookup_app_l_Some. unfold component_labels.
    rewrite list_lookup_fmap, Hi. reflexivity.
  - rewrite <- replace_space_br. repeat split; reflexivity.
Qed.

Lemma component_label_text_witness :
  components !! 1%nat =
    Some ("Cloudflare Workers",
          {| Props.x := Int 2; Props.y := Int 4;
             Props.type := "backend"; Props.color := "#DB4545" |}) /\
  exists label,
    annotations fig !! 1%nat = Some label /\
    label = component_label "Cloudflare Workers"
              {| Props.x := Int 2; Props.y := Int 4;
                 Props.type := "backend"; Props.color := "#DB4545" |} /\
    get_num label "x" = Some (Int 2) /\
    get_num label "y" = Some (Int 4) /\
    get_str label "text" = Some (spaces_to_br "Cloudflare Workers").
Proof.
  split; [reflexivity|].
  apply (component_label_text components layers user_flow_arrows 1
           "Cloudflare Workers"
           {| Props.x := Int 2; Props.y := Int 4;
              Props.type := "backend"; Props.color := "#DB4545" |}).
  reflexivity.
Defined.

(** ** The order of the shapes *)

(** C6: the components loop, run on the fresh figure, leaves exactly the
    nine component boxes; the layers loop appends its bands behind the
    shapes that are already there; so in the finished figure the first nine
    shapes are the component boxes and the five layer bands follow them, and
    every band is stacked above every box. *)
Theorem component_boxes_before_layer_bands :
  shapes (add_components components go_Figure) = component_boxes components /\
  (forall f, shapes (add_layer_bands layers f)
             = (shapes f ++ (layer_band <$> layers))%list) /\
  length (component_boxes components) = 9%nat /\
  length (layer_band <$> layers) = 5%nat /\
  take 9 (shapes fig) = component_boxes components /\
  drop 9 (shapes fig) = layer_band <$> layers /\
  Forall (fun box => get_num box "opacity" = Some (Float 0.8)) (take 9 (shapes fig)) /\
  Forall (fun band => get_num band "opacity" = Some (Float 0.1)) (drop 9 (shapes fig)).
Proof.
  assert (Hfig : shapes fig
                 = (component_boxes components ++ (layer_band <$> layers))%list).
  { unfold fig. by rewrite build_figure_spec. }
  assert (Hlen : length (component_boxes components) = 9%nat) by reflexivity.
  assert (Htake : take 9 (shapes fig) = component_boxes components).
  { rewrite Hfig, <- Hlen. apply take_app_length. }
  assert (Hdrop : drop 9 (shapes fig) = layer_band <$> layers).
  { rewrite Hfig, <- Hlen. apply drop_app_length. }
  split; [by rewrite add_components_spec|].
  split; [intros f; by rewrite add_layer_bands_spec|].
  split; [exact Hlen|]. split; [reflexivity|].
  split; [exact Htake|]. split; [exact Hdrop|].
  rewrite Htake, Hdrop. unfold component_boxes.
  split; apply Forall_fmap.
  - apply Forall_true. intros ?. reflexivity.
  - repeat constructor.
Qed.

(** ** Arrows and rectangles against the axis ranges *)

(** C2: the layout declares the ranges x in [-0.5, 5] and y in [0.5, 6];
    the annotations that draw an arrow are the admin bypass arrow, the seven
    user flow arrows and the GitHub arrow; and for each of the nine both the
    tail (ax, ay) and the head (x, y) lie within the declared ranges. *)
Theorem arrows_within_axes :
  axis_range fig "xaxis" = Some (Float (-0.5), Int 5) /\
  axis_range fig "yaxis" = Some (Float 0.5, Int 6) /\
  List.filter is_arrow (annotations fig)
    = (admin_bypass_arrow :: (user_flow_arrow <$> user_flow_arrows)
         ++ [github_arrow])%list /\
  length user_flow_arrows = 7%nat /\
  length (List.filter is_arrow (annotations fig)) = 9%nat /\
  Forall (fun a => arrow_in_axes fig a = true)
         (List.filter is_arrow (annotations fig)) /\
  Forall (fun a =>
            in_range (Float (-0.5), Int 5) (fst (Arrow.start a)) = true /\
            in_range (Float 0.5, Int 6) (snd (Arrow.start a)) = true /\
            in_range (Float (-0.5), Int 5) (fst (Arrow.end_ a)) = true /\
            in_range (Float 0.5, Int 6) (snd (Arrow.end_ a)) = true)
         user_flow_arrows.
Proof.
  do 2 (split; [vm_compute; reflexivity|]).
  split; [apply arrows_of_figure|].
  split; [reflexivity|].
  split; [unfold fig; by rewrite arrows_of_figure|].
  split.
  - apply Forall_of_forallb. vm_compute. reflexivity.
  - repeat constructor.
Qed.

(** C8: every rectangle of the figure lies within the declared axis ranges:
    for each component, [x-0.3, x+0.3] is in [-0.5, 5] and [y-0.2, y+0.2] in
    [0.5, 6]; for each layer, [-0.2, 4.2] is in [-0.5, 5] and
    [y-0.4, y+0.4] in [0.5, 6]; and these are the ranges that the layout
    declares. *)
Theorem rectangles_within_axes :
  axis_range fig "xaxis" = Some (Float (-0.5), Int 5) /\
  axis_range fig "yaxis" = Some (Float 0.5, Int 6) /\
  Forall (fun item =>
            interval_in_range (Float (-0.5), Int 5)
              (Props.x (snd item) - Float 0.3) (Props.x (snd item) + Float 0.3) = true /\
            interval_in_range (Float 0.5, Int 6)
              (Props.y (snd item) - Float 0.2) (Props.y (snd item) + Float 0.2) = true)
         components /\
  Forall (fun layer =>
            interval_in_range (Float (-0.5), Int 5) (Float (-0.2)) (Float 4.2) = true /\
            interval_in_range (Float 0.5, Int 6)
              (Layer.y layer - Float 0.4) (Layer.y layer + Float 0.4) = true)
         layers /\
  shapes fig = (component_boxes components ++ (layer_band <$> layers))%list /\
  Forall (fun s => rect_in_axes fig s = true) (shapes fig).
Proof.
  do 2 (split; [vm_compute; reflexivity|]).
  do 2 (split; [repeat constructor|]).
  split; [unfold fig; by rewrite build_figure_spec|].
  apply Forall_of_forallb. vm_compute. reflexivity.
Qed.

(** C9: every entry of the user flow arrow list starts strictly above its
    end and has the colour "blue"; the arrows drawn from the list (the
    seven annotations after the admin bypass arrow) point down and have the
    arrow colour "blue". *)
Theorem user_flow_arrows_point_down :
  Forall (fun a =>
            (snd (Arrow.end_ a) <? snd (Arrow.start a))%num = true /\
            Arrow.color a = "blue")
         user_flow_arrows /\
  (forall a, get_str (user_flow_arrow a) "arrowcolor" = Some (Arrow.color a)) /\
  take 7 (drop 15 (annotations fig)) = user_flow_arrow <$> user_flow_arrows /\
  Forall (fun a =>
            arrow_points_down a = true /\ get_str a "arrowcolor" = Some "blue")
         (user_flow_arrow <$> user_flow_arrows).
Proof.
  repeat apply conj.
  - repeat constructor.
  - intros a. reflexivity.
  - apply (user_flow_annotations components layers user_flow_arrows).
  - repeat constructor.
Qed.

(** ** Layers and their components *)

Lemma tier_component_exists layer comps :
  existsb (tier_component layer) comps = true ->
  exists name props,
    (name, props) ∈ comps /\
    Props.type props = lower (Layer.name layer) /\
    (Props.y props =? Layer.y layer)%num = true.
Proof.
  intros [[name props] [Hin Ht]]%existsb_exists.
  apply andb_true_iff in Ht as [Hty Hy].
  exists name, props. split; [by apply list_elem_of_In|].
  split; [by apply String.eqb_eq|exact Hy].
Qed.

(** C10: every layer of the layer table has a component in the component
    table whose category is the lowercased layer name and whose y equals the
    y of the layer; the tiers are frontend/5, backend/4, storage/3,
    processing/2 and payment/1. *)
Theorem every_layer_has_a_component :
  Forall (fun layer =>
            exists name props,
              (name, props) ∈ components /\
              Props.type props = lower (Layer.name layer) /\
              (Props.y props =? Layer.y layer)%num = true)
         layers /\
  (fun layer => (lower (Layer.name layer), Layer.y layer)) <$> layers
    = [ ("frontend", Int 5); ("backend", Int 4); ("storage", Int 3);
        ("processing", Int 2); ("payment", Int 1) ].
Proof.
  split; [|reflexivity].
  eapply Forall_impl.
  - apply (Forall_of_forallb (fun layer => existsb (tier_component layer) components)).
    vm_compute. reflexivity.
  - intros layer. apply tier_component_exists.
Qed.

(** ** Layout and export *)

(** C4: the figure that is written has the x range [-0.5, 5] and the
    y range [0.5, 6], no grid lines, tick labels or zero lines on either
    axis, a white plot background and no legend; a run of the script then
    stores the rendering of that figure at "fwea_architecture_updated.png"
    and leaves every other file as it was. *)
Theorem layout_and_export {Image} (render : Figure -> Image)
    (fs : gmap string Image) :
  layout fig = layout_update /\
  axis_prop fig "xaxis" "range" = Some (List [Num (Float (-0.5)); Num (Int 5)]) /\
  axis_prop fig "yaxis" "range" = Some (List [Num (Float 0.5); Num (Int 6)]) /\
  axis_prop fig "xaxis" "showgrid" = Some (Bool false) /\
  axis_prop fig "xaxis" "showticklabels" = Some (Bool false) /\
  axis_prop fig "xaxis" "zeroline" = Some (Bool false) /\
  axis_prop fig "yaxis" "showgrid" = Some (Bool false) /\
  axis_prop fig "yaxis" "showticklabels" = Some (Bool false) /\
  axis_prop fig "yaxis" "zeroline" = Some (Bool false) /\
  layout fig !! "plot_bgcolor" = Some (Str "white") /\
  layout fig !! "showlegend" = Some (Bool false) /\
  chart_script render fs = <["fwea_architecture_updated.png" := render fig]> fs /\
  chart_script render fs !! "fwea_architecture_updated.png" = Some (render fig) /\
  delete "fwea_architecture_updated.png" (chart_script render fs)
    = delete "fwea_architecture_updated.png" fs /\
  dom (chart_script render fs) = {[ "fwea_architecture_updated.png" ]} ∪ dom fs.
Proof.
  split; [unfold fig; by rewrite build_figure_spec|].
  do 10 (split; [vm_compute; reflexivity|]).
  unfold chart_script, run, write_image. fold fig.
  split; [reflexivity|].
  split; [apply lookup_insert_eq|].
  split; [apply delete_insert_eq|apply dom_insert_L].
Qed.

(** * Further properties of the script *)

(** ** More on str.replace *)

Lemma append_cons x (a b : string) : String x a ++ b = String x (a ++ b).
Proof. reflexivity. Qed.

Lemma append_nil (a : string) : "" ++ a = a.
Proof. reflexivity. Qed.

Lemma string_app_assoc (a b c : string) : (a ++ b) ++ c = a ++ (b ++ c).
Proof.
  induction a as [|x a IH]; [reflexivity|].
  by rewrite !append_cons, IH.
Qed.

Lemma prefix_empty s : String.prefix "" s = true.
Proof. by destruct s. Qed.

(** Searching one character: the first position in [String d s]. *)
Lemma index_char_cons c d s :
  String.index 0 (String c "") (String d s) =
  if ascii_dec c d then Some 0%nat
  else match String.index 0 (String c "") s with
       | Some n => Some (S n)
       | None => None
       end.
Proof.
  cbn [String.index String.prefix].
  destruct (ascii_dec c d); [by rewrite prefix_empty|reflexivity].
Qed.

(** X1: a string in which [old] does not occur is returned as it is,
    whatever [old] and [new] are. *)
Theorem replace_absent old new s :
  String.index 0 old s = None -> replace old new s = s.
Proof.
  destruct old as [|a old].
  { destruct s; cbn; discriminate. }
  unfold replace.
  induction s as [|c s IH]; [reflexivity|].
  cbn [String.index replace_from].
  destruct (String.prefix (String a old) (String c s)); [discriminate|].
  destruct (String.index 0 (String a old) s); [discriminate|].
  intros _. by rewrite IH.
Qed.

Lemma replace_absent_witness :
  String.index 0 " " "Stripe" = None /\ replace " " "<br>" "Stripe" = "Stripe".
Proof.
  split; [reflexivity|].
  apply (replace_absent " " "<br>" "Stripe"). reflexivity.
Defined.

(** X2: the text of a component label holds no space, whatever the name. *)
Theorem label_text_has_no_space name :
  String.index 0 " " (replace " " "<br>" name) = None.
Proof.
  rewrite replace_space_br.
  induction name as [|c name IH]; [reflexivity|].
  cbn [spaces_to_br].
  destruct (Ascii.eqb_spec c " ") as [->|Hc].
  - rewrite !append_cons, append_nil, !index_char_cons. cbn. by rewrite IH.
  - rewrite append_cons, append_nil, index_char_cons.
    destruct (ascii_dec " " c) as [<-|_]; [done|]. by rewrite IH.
Qed.

(** X3: replacing the line breaks of a label text by spaces gives the name
    back, for a name without the character "<". *)
Theorem label_text_round_trip name :
  String.index 0 "<" name = None ->
  replace "<br>" " " (replace " " "<br>" name) = name.
Proof.
  rewrite replace_space_br.
  change (String.index 0 "<" name = None ->
          replace_from "<br>" " " 0 (spaces_to_br name) = name).
  induction name as [|c name IH]; [reflexivity|].
  rewrite index_char_cons.
  destruct (ascii_dec "<" c) as [<-|Hc]; [discriminate|].
  destruct (String.index 0 "<" name); [discriminate|].
  intros _. specialize (IH eq_refl). cbn [spaces_to_br].
  destruct (Ascii.eqb_spec c " ") as [->|Hsp].
  - rewrite !append_cons, append_nil. cbn. by rewrite prefix_empty, IH.
  - rewrite append_cons, append_nil. cbn [replace_from String.prefix].
    destruct (ascii_dec "<" c) as [<-|_]; [done|]. by rewrite IH.
Qed.

Lemma label_text_round_trip_witness :
  String.index 0 "<" "Cloudflare Workers" = None /\
  replace "<br>" " " (replace " " "<br>" "Cloudflare Workers") = "Cloudflare Workers".
Proof.
  split; [reflexivity|].
  apply (label_text_round_trip "Cloudflare Workers"). reflexivity.
Defined.

(** Replacing a single character works piece by piece: the result on
    [s1 ++ s2] is the result on [s1] followed by the result on [s2]. *)
Lemma replace_char_app c new s1 s2 :
  replace (String c "") new (s1 ++ s2) =
  replace (String c "") new s1 ++ replace (String c "") new s2.
Proof.
  unfold replace.
  induction s1 as [|d s1 IH]; [reflexivity|].
  rewrite append_cons.
  cbn [replace_from String.prefix String.length Nat.sub].
  destruct (ascii_dec c d) as [_|_].
  - rewrite !prefix_empty, IH. by rewrite string_app_assoc.
  - by rewrite IH.
Qed.

(** X4: a name made of words without a space, joined by single spaces, gets
    as label text the same words joined by "<br>": one line break for each
    space, and every word as it is. *)
Theorem label_text_of_words (words : list string) :
  Forall (fun w => String.index 0 " " w = None) words ->
  replace " " "<br>" (join " " words) = join "<br>" words.
Proof.
  induction 1 as [|w ws Hw Hws IH]; [reflexivity|].
  destruct ws as [|w' ws].
  - cbn [join]. by rewrite replace_space_br, spaces_to_br_no_space.
  - change (join " " (w :: w' :: ws)) with (w ++ " " ++ join " " (w' :: ws)).
    change (join "<br>" (w :: w' :: ws)) with (w ++ "<br>" ++ join "<br>" (w' :: ws)).
    rewrite !replace_char_app, IH.
    rewrite (replace_space_br w), (spaces_to_br_no_space w Hw).
    reflexivity.
Qed.

Lemma label_text_of_words_witness :
  Forall (fun w => String.index 0 " " w = None) ["Cloudflare"; "Workers"] /\
  replace " " "<br>" (join " " ["Cloudflare"; "Workers"])
    = join "<br>" ["Cloudflare"; "Workers"].
Proof.
  assert (Hwords : Forall (fun w => String.index 0 " " w = None)
                          ["Cloudflare"; "Workers"])
    by (repeat constructor).
  split; [exact Hwords|].
  apply (label_text_of_words ["Cloudflare"; "Workers"] Hwords).
Defined.

(** ** Where each table entry ends up in the figure *)

Lemma lookup_app_add {A} (l1 l2 : list A) (i : nat) :
  (l1 ++ l2)%list !! (length l1 + i)%nat = l2 !! i.
Proof. rewrite lookup_app_r by lia. f_equal. lia. Qed.

Lemma lookup_app_add' {A} (l1 l2 : list A) (n i : nat) :
  n = length l1 -> (l1 ++ l2)%list !! (n + i)%nat = l2 !! i.
Proof. intros ->. apply lookup_app_add. Qed.

(** X5: the i-th shape is the rectangle of the i-th component and the i-th
    annotation is its label: the rectangle is filled with the component's
    colour and spans x-0.3..x+0.3 and y-0.2..y+0.2 around the point at which
    the label is anchored. *)
Theorem component_box_and_label_paired comps ls arrows (i : nat) name props :
  comps !! i = Some (name, props) ->
  shapes (build_figure comps ls arrows) !! i = Some (component_box props) /\
  annotations (build_figure comps ls arrows) !! i
    = Some (component_label name props) /\
  get_str (component_box props) "fillcolor" = Some (Props.color props) /\
  get_num (component_box props) "x0" = Some (Props.x props - Float 0.3)%num /\
  get_num (component_box props) "x1" = Some (Props.x props + Float 0.3)%num /\
  get_num (component_box props) "y0" = Some (Props.y props - Float 0.2)%num /\
  get_num (component_box props) "y1" = Some (Props.y props + Float 0.2)%num /\
  arrow_end (component_label name props) = Some (Props.x props, Props.y props).
Proof.
  intros Hi. rewrite build_figure_spec. cbn [shapes annotations].
  split; [|split].
  - apply lookup_app_l_Some. unfold component_boxes.
    by rewrite list_lookup_fmap, Hi.
  - apply lookup_app_l_Some. unfold component_labels.
    by rewrite list_lookup_fmap, Hi.
  - repeat split; reflexivity.
Qed.

Lemma component_box_and_label_paired_witness :
  let stripe :=
    {| Props.x := Float 3.5; Props.y := Int 1;
       Props.type := "payment"; Props.color := "#D2BA4C" |} in
  components !! 7%nat = Some ("Stripe", stripe) /\
  shapes fig !! 7%nat = Some (component_box stripe) /\
  annotations fig !! 7%nat = Some (component_label "Stripe" stripe).
Proof.
  cbv zeta. split; [reflexivity|].
  pose proof (component_box_and_label_paired components layers user_flow_arrows 7
                "Stripe"
                {| Props.x := Float 3.5; Props.y := Int 1;
                   Props.type := "payment"; Props.color := "#D2BA4C" |}
                eq_refl) as (Hbox & Hlabel & _).
  split; [exact Hbox|exact Hlabel].
Defined.

(** X6: the band of the i-th layer is the shape at index
    [length comps + i] and its label the annotation at the same index; the
    band takes the colour and the opacity of the layer and always spans
    x from -0.2 to 4.2; the label shows the layer name as it is, spaces
    included, turned by 90 degrees. *)
Theorem layer_band_and_label comps ls arrows (i : nat) layer :
  ls !! i = Some layer ->
  shapes (build_figure comps ls arrows) !! (length comps + i)%nat
    = Some (layer_band layer) /\
  annotations (build_figure comps ls arrows) !! (length comps + i)%nat
    = Some (layer_label layer) /\
  get_str (layer_band layer) "fillcolor" = Some (Layer.color layer) /\
  get_num (layer_band layer) "opacity" = Some (Layer.alpha layer) /\
  get_num (layer_band layer) "x0" = Some (Float (-0.2)) /\
  get_num (layer_band layer) "x1" = Some (Float 4.2) /\
  get_str (layer_label layer) "text" = Some (Layer.name layer) /\
  get_num (layer_label layer) "textangle" = Some (Int 90) /\
  is_arrow (layer_label layer) = false.
Proof.
  intros Hi. rewrite build_figure_spec. cbn [shapes annotations].
  split; [|split].
  - rewrite lookup_app_add' by (unfold component_boxes; by rewrite length_fmap).
    by rewrite list_lookup_fmap, Hi.
  - rewrite lookup_app_add' by (unfold component_labels; by rewrite length_fmap).
    apply lookup_app_l_Some. by rewrite list_lookup_fmap, Hi.
  - repeat split; reflexivity.
Qed.

Lemma layer_band_and_label_witness :
  let storage :=
    {| Layer.name := "Storage"; Layer.y := Int 3;
       Layer.color := "#2E8B57"; Layer.alpha := Float 0.1 |} in
  layers !! 2%nat = Some storage /\
  shapes fig !! 11%nat = Some (layer_band storage) /\
  annotations fig !! 11%nat = Some (layer_label storage).
Proof.
  cbv zeta. split; [reflexivity|].
  pose proof (layer_band_and_label components layers user_flow_arrows 2
                {| Layer.name := "Storage"; Layer.y := Int 3;
                   Layer.color := "#2E8B57"; Layer.alpha := Float 0.1 |}
                eq_refl) as (Hband & Hlabel & _).
  split; [exact Hband|exact Hlabel].
Defined.

(** X7: the i-th entry of the user flow list is drawn by the annotation at
    index [length comps + length ls + 1 + i]: an arrow whose tail (ax, ay)
    is the entry's start, whose head (x, y) is the entry's end, and whose
    colour is the entry's colour. *)
Theorem user_flow_arrow_direction comps ls arrows (i : nat) arrow :
  arrows !! i = Some arrow ->
  annotations (build_figure comps ls arrows)
    !! (length comps + length ls + 1 + i)%nat = Some (user_flow_arrow arrow) /\
  is_arrow (user_flow_arrow arrow) = true /\
  arrow_start (user_flow_arrow arrow) = Some (Arrow.start arrow) /\
  arrow_end (user_flow_arrow arrow) = Some (Arrow.end_ arrow) /\
  get_str (user_flow_arrow arrow) "arrowcolor" = Some (Arrow.color arrow).
Proof.
  intros Hi. rewrite build_figure_spec. cbn [annotations].
  split.
  - change (admin_bypass_arrow :: ?l)%list with ([admin_bypass_arrow] ++ l)%list.
    rewrite !(assoc_L (++)).
    rewrite <- (assoc_L (++) _ (user_flow_arrow <$> arrows)).
    rewrite lookup_app_add'.
    + apply lookup_app_l_Some. by rewrite list_lookup_fmap, Hi.
    + unfold component_labels. rewrite !length_app, !length_fmap. reflexivity.
  - destruct arrow as [[sx sy] [ex ey] col]. repeat split; reflexivity.
Qed.

Lemma user_flow_arrow_direction_witness :
  let upload :=
    {| Arrow.start := (Int 2, Float 4.8); Arrow.end_ := (Int 2, Float 4.2);
       Arrow.color := "blue" |} in
  user_flow_arrows !! 0%nat = Some upload /\
  annotations fig !! 15%nat = Some (user_flow_arrow upload) /\
  arrow_start (user_flow_arrow upload) = Some (Int 2, Float 4.8) /\
  arrow_end (user_flow_arrow upload) = Some (Int 2, Float 4.2).
Proof.
  cbv zeta. split; [reflexivity|].
  pose proof (user_flow_arrow_direction components layers user_flow_arrows 0
                {| Arrow.start := (Int 2, Float 4.8);
                   Arrow.end_ := (Int 2, Float 4.2);
                   Arrow.color := "blue" |}
                eq_refl) as (Hat & _ & Hs & He & _).
  split; [exact Hat|]. split; [exact Hs|exact He].
Defined.

(** X8: the figure holds one annotation per component, per layer and per
    user flow entry, and four more; of these, the user flow entries and two
    more draw an arrow, the others are plain text. *)
Theorem annotation_counts comps ls arrows :
  length (annotations (build_figure comps ls arrows))
    = (length comps + length ls + length arrows + 4)%nat /\
  length (List.filter is_arrow (annotations (build_figure comps ls arrows)))
    = (length arrows + 2)%nat /\
  length (List.filter (fun a => negb (is_arrow a))
            (annotations (build_figure comps ls arrows)))
    = (length comps + length ls + 2)%nat.
Proof.
  assert (Hall : length (annotations (build_figure comps ls arrows))
                 = (length comps + length ls + length arrows + 4)%nat).
  { rewrite build_figure_spec. cbn [annotations]. unfold component_labels.
    rewrite !length_app, !length_fmap. cbn [length].
    rewrite !length_app, !length_fmap. cbn [length]. lia. }
  assert (Harr : length (List.filter is_arrow
                           (annotations (build_figure comps ls arrows)))
                 = (length arrows + 2)%nat).
  { rewrite arrows_of_figure. cbn [length].
    rewrite length_app, length_fmap. cbn [length]. lia. }
  split; [exact Hall|]. split; [exact Harr|].
  pose proof (List.filter_length is_arrow
                (annotations (build_figure comps ls arrows))) as Hsum.
  lia.
Qed.

(** X9: every annotation that draws an arrow gives both its tail and its
    head, and gives them in the coordinates of the axes (xref, yref, axref
    and ayref are "x", "y", "x" and "y"), with arrow head style 2. *)
Theorem arrows_in_data_coordinates comps ls arrows :
  Forall (fun a =>
            is_Some (arrow_start a) /\ is_Some (arrow_end a) /\
            get_str a "xref" = Some "x" /\ get_str a "yref" = Some "y" /\
            get_str a "axref" = Some "x" /\ get_str a "ayref" = Some "y" /\
            get_num a "arrowhead" = Some (Int 2))
         (List.filter is_arrow (annotations (build_figure comps ls arrows))).
Proof.
  rewrite arrows_of_figure.
  apply Forall_cons; split; [|apply Forall_app; split].
  - repeat split; try reflexivity; eexists; reflexivity.
  - apply Forall_fmap, Forall_true. intros a.
    repeat split; try reflexivity; eexists; reflexivity.
  - apply Forall_cons; split; [|constructor].
    repeat split; try reflexivity; eexists; reflexivity.
Qed.

(** X10: whatever the tables hold, the admin bypass arrow comes right after
    the layer labels, the last three annotations are the GitHub arrow and
    the two journey labels, and the layout is the one of the final
    [update_layout] call. *)
Theorem fixed_annotations_and_layout comps ls arrows :
  annotations (build_figure comps ls arrows) !! (length comps + length ls)%nat
    = Some admin_bypass_arrow /\
  drop (length comps + length ls + 1 + length arrows)
       (annotations (build_figure comps ls arrows))
    = [github_arrow; user_journey_label; admin_journey_label] /\
  layout (build_figure comps ls arrows) = layout_update.
Proof.
  rewrite build_figure_spec. cbn [annotations layout].
  split; [|split; [|reflexivity]].
  - rewrite (assoc_L (++)).
    replace (length comps + length ls)%nat
      with (length (component_labels comps ++ (layer_label <$> ls)) + 0)%nat.
    + by rewrite lookup_app_add.
    + unfold component_labels. rewrite length_app, !length_fmap. lia.
  - change (admin_bypass_arrow :: ?l)%list with ([admin_bypass_arrow] ++ l)%list.
    rewrite !(assoc_L (++)).
    apply drop_app_length'.
    unfold component_labels. rewrite !length_app, !length_fmap. reflexivity.
Qed.

(** ** Which positions keep a rectangle inside the axes *)

(** X11: a component placed at integer coordinates with 0 <= x <= 4 and
    1 <= y <= 5 gets a box that lies within the axis ranges of the figure,
    whatever its name, category and colour and whatever else the tables
    hold. *)
Theorem component_box_fits comps ls arrows (x y : Z) ty col :
  (0 <= x <= 4)%Z -> (1 <= y <= 5)%Z ->
  rect_in_axes (build_figure comps ls arrows)
    (component_box {| Props.x := Int x; Props.y := Int y;
                      Props.type := ty; Props.color := col |}) = true.
Proof.
  intros Hx Hy. rewrite build_figure_spec.
  assert (Hxs : (x = 0 \/ x = 1 \/ x = 2 \/ x = 3 \/ x = 4)%Z) by lia.
  assert (Hys : (y = 1 \/ y = 2 \/ y = 3 \/ y = 4 \/ y = 5)%Z) by lia.
  clear Hx Hy.
  destruct Hxs as [->|[->|[->|[->| ->]]]];
    destruct Hys as [->|[->|[->|[->| ->]]]]; reflexivity.
Qed.

Lemma component_box_fits_witness :
  rect_in_axes fig
    (component_box {| Props.x := Int 2; Props.y := Int 5;
                      Props.type := "frontend"; Props.color := "#1FB8CD" |}) = true.
Proof.
  apply (component_box_fits components layers user_flow_arrows 2 5
           "frontend" "#1FB8CD"); lia.
Defined.

(** X12: a layer at an integer height 1 <= y <= 5 gets a band that lies
    within the axis ranges of the figure, whatever its name, colour and
    opacity and whatever else the tables hold. *)
Theorem layer_band_fits comps ls arrows nm (y : Z) col al :
  (1 <= y <= 5)%Z ->
  rect_in_axes (build_figure comps ls arrows)
    (layer_band {| Layer.name := nm; Layer.y := Int y;
                   Layer.color := col; Layer.alpha := al |}) = true.
Proof.
  intros Hy. rewrite build_figure_spec.
  assert (Hys : (y = 1 \/ y = 2 \/ y = 3 \/ y = 4 \/ y = 5)%Z) by lia.
  clear Hy.
  destruct Hys as [->|[->|[->|[->| ->]]]]; reflexivity.
Qed.

Lemma layer_band_fits_witness :
  rect_in_axes fig
    (layer_band {| Layer.name := "Payment"; Layer.y := Int 1;
                   Layer.color := "#D2BA4C"; Layer.alpha := Float 0.1 |}) = true.
Proof.
  apply (layer_band_fits components layers user_flow_arrows "Payment" 1
           "#D2BA4C" (Float 0.1)); lia.
Defined.

(** ** What the shapes depend on *)

(** X13: the shapes of the figure depend on the positions and colours of
    the components and on the layers only: renaming components or changing
    the user flow list leaves every shape as it is. *)
Theorem shapes_ignore_names_and_arrows
    (comps1 comps2 : list (string * Props.t)) ls arrows1 arrows2 :
  snd <$> comps1 = snd <$> comps2 ->
  shapes (build_figure comps1 ls arrows1) = shapes (build_figure comps2 ls arrows2).
Proof.
  intros Hprops. rewrite !build_figure_spec. cbn [shapes]. f_equal.
  unfold component_boxes.
  change (fun item : string * Props.t => component_box (snd item))
    with (component_box ∘ (snd : string * Props.t -> Props.t)).
  by rewrite !list_fmap_compose, Hprops.
Qed.

Lemma shapes_ignore_names_and_arrows_witness :
  let p := {| Props.x := Int 2; Props.y := Int 5;
              Props.type := "frontend"; Props.color := "#1FB8CD" |} in
  shapes (build_figure [("Wix Frontend", p)] layers user_flow_arrows)
  = shapes (build_figure [("Web App", p)] layers []).
Proof.
  cbv zeta.
  apply (shapes_ignore_names_and_arrows
           [("Wix Frontend", {| Props.x := Int 2; Props.y := Int 5;
                                Props.type := "frontend"; Props.color := "#1FB8CD" |})]
           [("Web App", {| Props.x := Int 2; Props.y := Int 5;
                           Props.type := "frontend"; Props.color := "#1FB8CD" |})]
           layers user_flow_arrows []).
  reflexivity.
Defined.
